(** * Verification of the command interpreter of the voice assistant
    (src/chap 1/main.py).

    Strings are modelled as Rocq [string]s over ASCII characters; the Python
    string methods the code calls ([strip], [lower], [replace], [startswith],
    [in], [split]) are written out below with Python's semantics on that
    alphabet. *)

From Stdlib Require Import ZArith Bool List Lia.
From Stdlib Require Import Strings.String Strings.Ascii Numbers.DecimalString.
Import ListNotations.
Open Scope string_scope.
Open Scope bool_scope.
Set Warnings "-register-all".


(* ------------------------------------------------------------------ *)
(** ** Python string methods *)

Module Py.

(** [str.isspace] restricted to ASCII: \t \n \v \f \r, the separators
    \x1c-\x1f and the space. *)
Definition is_space (c : ascii) : bool :=
  let n := nat_of_ascii c in
  ((9 <=? n) && (n <=? 13))%nat || ((28 <=? n) && (n <=? 32))%nat.

Definition is_digit (c : ascii) : bool :=
  let n := nat_of_ascii c in ((48 <=? n) && (n <=? 57))%nat.

Definition lower_char (c : ascii) : ascii :=
  let n := nat_of_ascii c in
  if ((65 <=? n) && (n <=? 90))%nat then ascii_of_nat (n + 32) else c.

(** [s.lower()] *)
Fixpoint lower (s : string) : string :=
  match s with
  | EmptyString => EmptyString
  | String c r => String (lower_char c) (lower r)
  end.

(** [s.lstrip()] *)
Fixpoint lstrip (s : string) : string :=
  match s with
  | EmptyString => EmptyString
  | String c r => if is_space c then lstrip r else s
  end.

(** [s.rstrip()] *)
Fixpoint rstrip (s : string) : string :=
  match s with
  | EmptyString => EmptyString
  | String c r =>
      let r' := rstrip r in
      match r' with
      | EmptyString => if is_space c then EmptyString else String c EmptyString
      | _ => String c r'
      end
  end.

(** [s.strip()] *)
Definition strip (s : string) : string := rstrip (lstrip s).

(** [s.startswith(p)] *)
Definition startswith (s p : string) : bool := String.prefix p s.

(** [needle in s] *)
Fixpoint contains (needle s : string) : bool :=
  String.prefix needle s ||
  match s with
  | EmptyString => false
  | String _ r => contains needle r
  end.

(** [s[n:]] *)
Fixpoint drop (n : nat) (s : string) : string :=
  match n, s with
  | O, _ => s
  | S n', EmptyString => EmptyString
  | S n', String _ r => drop n' r
  end.

(** [s.replace(old, new)] for a non-empty [old]: occurrences are replaced
    left to right, and the scan resumes after the replaced occurrence, so
    occurrences never overlap.  [skip] counts the characters of the current
    match still to be passed over. *)
Fixpoint replace_from (old new : string) (skip : nat) (s : string) : string :=
  match s with
  | EmptyString => EmptyString
  | String c r =>
      match skip with
      | S k => replace_from old new k r
      | O =>
          if String.prefix old s
          then new ++ replace_from old new (String.length old - 1) r
          else String c (replace_from old new 0 r)
      end
  end.

(** With an empty [old], Python inserts [new] before every character and at
    the end. *)
Fixpoint interleave (new s : string) : string :=
  match s with
  | EmptyString => new
  | String c r => new ++ String c (interleave new r)
  end.

Definition replace (s old new : string) : string :=
  match old with
  | EmptyString => interleave new s
  | _ => replace_from old new 0 s
  end.

(** [s.split()]: maximal runs of non-whitespace characters. *)
Fixpoint split_acc (cur : string) (s : string) : list string :=
  match s with
  | EmptyString => match cur with EmptyString => [] | _ => [cur] end
  | String c r =>
      if is_space c
      then match cur with
           | EmptyString => split_acc EmptyString r
           | _ => cur :: split_acc EmptyString r
           end
      else split_acc (cur ++ String c EmptyString) r
  end.

Definition split (s : string) : list string := split_acc EmptyString s.

(** [all(pred(ch) for ch in s)] *)
Fixpoint all_chars (p : ascii -> bool) (s : string) : bool :=
  match s with
  | EmptyString => true
  | String c r => p c && all_chars p r
  end.

(** [any(pred(ch) for ch in s)] *)
Fixpoint any_char (p : ascii -> bool) (s : string) : bool :=
  match s with
  | EmptyString => false
  | String c r => p c || any_char p r
  end.

(** [str(z)] for a Python int. *)
Definition str_of_int (z : Z) : string := NilEmpty.string_of_int (Z.to_int z).

End Py.

(* ------------------------------------------------------------------ *)
(** ** The spoken-operator normaliser (lines 246-262) *)

(** The dict literal of lines 247-258; [replacements.items()] yields the
    pairs in this insertion order. *)
Definition replacements : list (string * string) :=
  [ (" plus ", " + ");
    (" minus ", " - ");
    (" times ", " * ");
    (" multiplied by ", " * ");
    (" divided by ", " / ");
    (" over ", " / ");
    (" mod ", " % ");
    (" modulo ", " % ");
    (" to the power of ", "**");
    (" power of ", "**") ].

(** [for k, v in table: s = s.replace(k, v)] *)
Definition replace_all (table : list (string * string)) (s : string) : string :=
  fold_left (fun acc kv => Py.replace acc (fst kv) (snd kv)) table s.

(** Lines 259-262: pad with one space on each side, run the replacements,
    strip. *)
Definition normalize (expr : string) : string :=
  Py.strip (replace_all replacements (" " ++ expr ++ " ")).

(** The replacement table in the order written in the specification
    (section 4.1), to be compared with [replacements]. *)
Definition spec_replacements : list (string * string) :=
  [ (" multiplied by ", " * ");
    (" divided by ", " / ");
    (" to the power of ", "**");
    (" power of ", "**");
    (" plus ", " + ");
    (" minus ", " - ");
    (" times ", " * ");
    (" over ", " / ");
    (" modulo ", " % ");
    (" mod ", " % ") ].

Definition normalize_spec_order (expr : string) : string :=
  Py.strip (replace_all spec_replacements (" " ++ expr ++ " ")).

(** Line 265: the character whitelist of the arithmetic gate. *)
Definition allowed_char (c : ascii) : bool :=
  Py.contains (String c EmptyString) "0123456789+-*/(). %".

(* ------------------------------------------------------------------ *)
(** ** Python's [ast.parse(expr, mode="eval")] on the gate's alphabet *)

(** [safe_eval] is only reached behind the whitelist gate of line 266, so
    the tokenizer below covers the digits, [+ - * / % ( ) .] and the space;
    any other character is reported as a tokenizer failure.  This is
    Python's behaviour only on that alphabet: with letters Python also has
    names, exponent floats (08e1) and imaginary literals (08j), which are
    not modelled, so statements about [safe_eval] keep to the whitelist. *)
Module PyParse.

Inductive token : Type :=
| TInt (z : Z)              (* decimal integer literal *)
| TFloat (lit : string)     (* point-float literal, kept as written *)
| TEllipsis                 (* ... *)
| TDot                      (* a lone . (attribute access) *)
| TPlus | TMinus | TStar | TDStar | TSlash | TDSlash | TPercent
| TLPar | TRPar.

(** Longest prefix of digits, and the rest. *)
Fixpoint span_digits (s : string) : string * string :=
  match s with
  | EmptyString => (EmptyString, EmptyString)
  | String c r =>
      if Py.is_digit c
      then let (ds, rest) := span_digits r in (String c ds, rest)
      else (EmptyString, s)
  end.

Fixpoint digits_value (acc : Z) (s : string) : Z :=
  match s with
  | EmptyString => acc
  | String c r => digits_value (10 * acc + Z.of_nat (nat_of_ascii c - 48))%Z r
  end.

(** "leading zeros in decimal integer literals are not permitted": an
    integer literal starting with 0 may only contain zeros. *)
Definition bad_leading_zero (ds : string) : bool :=
  match ds with
  | String "0" r => negb (Py.all_chars (fun c => Ascii.eqb c "0") r)
  | _ => false
  end.

Definition cons_tok (t : token) (rest : option (list token)) : option (list token) :=
  match rest with Some ts => Some (t :: ts) | None => None end.

Fixpoint lex (fuel : nat) (s : string) : option (list token) :=
  match fuel with
  | O => match s with EmptyString => Some [] | _ => None end
  | S f =>
  match s with
  | EmptyString => Some []
  | String c r =>
      if Ascii.eqb c " " then lex f r
      else if Py.is_digit c then
        let (ds, r1) := span_digits s in
        let int_tok :=
          if bad_leading_zero ds then None
          else cons_tok (TInt (digits_value 0 ds)) (lex f r1) in
        match r1 with
        | String d r2 =>
            if Ascii.eqb d "." then
              let (fs, r3) := span_digits r2 in
              cons_tok (TFloat (ds ++ "." ++ fs)) (lex f r3)
            else int_tok
        | EmptyString => int_tok
        end
      else if Ascii.eqb c "." then
        match r with
        | String d r' =>
            if Py.is_digit d then
              let (fs, r3) := span_digits r in
              cons_tok (TFloat ("." ++ fs)) (lex f r3)
            else if String.prefix "." r' && Ascii.eqb d "."
            then cons_tok TEllipsis (lex f (Py.drop 1 r'))
            else cons_tok TDot (lex f r)
        | EmptyString => cons_tok TDot (lex f r)
        end
      else if Ascii.eqb c "*" then
        match r with
        | String d r' =>
            if Ascii.eqb d "*" then cons_tok TDStar (lex f r')
            else cons_tok TStar (lex f r)
        | EmptyString => cons_tok TStar (lex f r)
        end
      else if Ascii.eqb c "/" then
        match r with
        | String d r' =>
            if Ascii.eqb d "/" then cons_tok TDSlash (lex f r')
            else cons_tok TSlash (lex f r)
        | EmptyString => cons_tok TSlash (lex f r)
        end
      else if Ascii.eqb c "+" then cons_tok TPlus (lex f r)
      else if Ascii.eqb c "-" then cons_tok TMinus (lex f r)
      else if Ascii.eqb c "%" then cons_tok TPercent (lex f r)
      else if Ascii.eqb c "(" then cons_tok TLPar (lex f r)
      else if Ascii.eqb c ")" then cons_tok TRPar (lex f r)
      else None
  end
  end.

(** The node classes of Python's [ast] that this alphabet can produce. *)
Inductive binop : Type := Add | Sub | Mult | Div | FloorDiv | Mod | Pow.
Inductive unaryop : Type := UAdd | USub.
Inductive constant : Type := CInt (z : Z) | CFloat (lit : string) | CEllipsis.

Inductive node : Type :=
| Constant (c : constant)
| BinOp (left : node) (op : binop) (right : node)
| UnaryOp (op : unaryop) (operand : node)
| Call (func : node) (args : list node) (keywords : list node)
| Starred (value : node)
| Tuple (elts : list node).

Definition mul_op (t : token) : option binop :=
  match t with
  | TStar => Some Mult | TSlash => Some Div | TDSlash => Some FloorDiv
  | TPercent => Some Mod | _ => None
  end.

Definition add_op (t : token) : option binop :=
  match t with TPlus => Some Add | TMinus => Some Sub | _ => None end.

Definition presult := option (node * list token).

(** Recursive descent over the PEG rules
      sum     : sum ('+'|'-') term | term
      term    : term ('*'|'/'|'//'|'%') factor | factor
      factor  : ('+'|'-') factor | power
      power   : primary '**' factor | primary
      primary : primary '(' [args] ')' | atom
      atom    : NUMBER | '...' | '(' ')' | '(' expression ')'
    with the left-recursive rules as loops.  [fuel] bounds the depth. *)
Fixpoint p_sum (fuel : nat) (ts : list token) : presult :=
  match fuel with O => None | S f =>
    match p_term f ts with
    | Some (l, ts') => p_sum_rest f l ts'
    | None => None
    end
  end
with p_sum_rest (fuel : nat) (l : node) (ts : list token) : presult :=
  match fuel with O => None | S f =>
    match ts with
    | t :: ts' =>
        match add_op t with
        | Some o =>
            match p_term f ts' with
            | Some (r, ts'') => p_sum_rest f (BinOp l o r) ts''
            | None => None
            end
        | None => Some (l, ts)
        end
    | [] => Some (l, ts)
    end
  end
with p_term (fuel : nat) (ts : list token) : presult :=
  match fuel with O => None | S f =>
    match p_factor f ts with
    | Some (l, ts') => p_term_rest f l ts'
    | None => None
    end
  end
with p_term_rest (fuel : nat) (l : node) (ts : list token) : presult :=
  match fuel with O => None | S f =>
    match ts with
    | t :: ts' =>
        match mul_op t with
        | Some o =>
            match p_factor f ts' with
            | Some (r, ts'') => p_term_rest f (BinOp l o r) ts''
            | None => None
            end
        | None => Some (l, ts)
        end
    | [] => Some (l, ts)
    end
  end
with p_factor (fuel : nat) (ts : list token) : presult :=
  match fuel with O => None | S f =>
    match ts with
    | TPlus :: ts' =>
        match p_factor f ts' with Some (e, r) => Some (UnaryOp UAdd e, r) | None => None end
    | TMinus :: ts' =>
        match p_factor f ts' with Some (e, r) => Some (UnaryOp USub e, r) | None => None end
    | _ => p_power f ts
    end
  end
with p_power (fuel : nat) (ts : list token) : presult :=
  match fuel with O => None | S f =>
    match p_primary f ts with
    | Some (b, TDStar :: ts') =>
        match p_factor f ts' with
        | Some (e, r) => Some (BinOp b Pow e, r)
        | None => None
        end
    | res => res
    end
  end
with p_primary (fuel : nat) (ts : list token) : presult :=
  match fuel with O => None | S f =>
    match p_atom f ts with
    | Some (a, ts') => p_trailers f a ts'
    | None => None
    end
  end
with p_trailers (fuel : nat) (fn : node) (ts : list token) : presult :=
  match fuel with O => None | S f =>
    match ts with
    | TLPar :: TRPar :: ts' => p_trailers f (Call fn [] []) ts'
    | TLPar :: TStar :: ts' =>
        match p_sum f ts' with
        | Some (e, TRPar :: r) => p_trailers f (Call fn [Starred e] []) r
        | _ => None
        end
    | TLPar :: TDStar :: ts' =>
        match p_sum f ts' with
        | Some (e, TRPar :: r) => p_trailers f (Call fn [] [e]) r
        | _ => None
        end
    | TLPar :: ts' =>
        match p_sum f ts' with
        | Some (e, TRPar :: r) => p_trailers f (Call fn [e] []) r
        | _ => None
        end
    | _ => Some (fn, ts)
    end
  end
with p_atom (fuel : nat) (ts : list token) : presult :=
  match fuel with O => None | S f =>
    match ts with
    | TInt z :: ts' => Some (Constant (CInt z), ts')
    | TFloat l :: ts' => Some (Constant (CFloat l), ts')
    | TEllipsis :: ts' => Some (Constant CEllipsis, ts')
    | TLPar :: TRPar :: ts' => Some (Tuple [], ts')
    | TLPar :: ts' =>
        match p_sum f ts' with
        | Some (e, TRPar :: r) => Some (e, r)
        | _ => None
        end
    | _ => None
    end
  end.

(** [eval: expression NEWLINE* ENDMARKER]; [None] is a [SyntaxError]. *)
Definition ast_parse (s : string) : option node :=
  match lex (String.length s) s with
  | Some ts =>
      match p_sum (8 * (List.length ts + 1)) ts with
      | Some (e, []) => Some e
      | _ => None
      end
  | None => None
  end.

End PyParse.

(* ------------------------------------------------------------------ *)
(** ** Python numbers and [safe_eval] (lines 86-135) *)

Module Assistant.
Import PyParse.

(** The exceptions the evaluator can raise. *)
Inductive pyexc : Type :=
| ValueError (msg : string)
| ZeroDivisionError
| OverflowError.

(** A computation that returns a value or raises. *)
Inductive res (A : Type) : Type :=
| Ok (a : A)
| Raise (e : pyexc).
Arguments Ok {A} a.
Arguments Raise {A} e.

Definition bind {A B} (m : res A) (k : A -> res B) : res B :=
  match m with Ok a => k a | Raise e => Raise e end.

Notation "x <- m ;; k" := (bind m (fun x => k))
  (at level 61, m at next level, right associativity).

(** Python ints are exact; every other number (float, or the complex
    result of a fractional power of a negative number) is of the abstract
    type [N]. *)
Inductive pyval (N : Type) : Type :=
| VInt (z : Z)
| VNum (x : N).
Arguments VInt {N} z.
Arguments VNum {N} x.

(** The floating-point part of Python's number semantics: the value of a
    float literal, every binary operation that involves a non-int operand
    (plus int true division and int power with a negative exponent, whose
    results are floats), negation of a non-int, and [prettify_number] of a
    non-int. *)
Class NumSem (N : Type) := {
  num_of_literal : string -> N;
  num_binop : binop -> pyval N -> pyval N -> res (pyval N);
  num_neg : N -> N;
  num_pretty : N -> string
}.

Section Eval.
Context {N : Type} `{NumSem N}.

(** Operators on two Python ints ([op.add], [op.mod], ...). *)
Definition int_binop (o : binop) (a b : Z) : res (pyval N) :=
  match o with
  | Add => Ok (VInt (a + b))
  | Sub => Ok (VInt (a - b))
  | Mult => Ok (VInt (a * b))
  | Mod => if (b =? 0)%Z then Raise ZeroDivisionError else Ok (VInt (Z.modulo a b))
  | FloorDiv => if (b =? 0)%Z then Raise ZeroDivisionError else Ok (VInt (Z.div a b))
  | Div => if (b =? 0)%Z then Raise ZeroDivisionError
           else num_binop Div (VInt a) (VInt b)
  | Pow => if (0 <=? b)%Z then Ok (VInt (Z.pow a b))
           else if (a =? 0)%Z then Raise ZeroDivisionError
           else num_binop Pow (VInt a) (VInt b)
  end.

Definition py_binop (o : binop) (x y : pyval N) : res (pyval N) :=
  match x, y with
  | VInt a, VInt b => int_binop o a b
  | _, _ => num_binop o x y
  end.

Definition py_unaryop (o : unaryop) (x : pyval N) : pyval N :=
  match o, x with
  | USub, VInt a => VInt (- a)
  | USub, VNum f => VNum (num_neg f)
  | UAdd, v => v
  end.

(** [type(node.op) in ALLOWED_OPERATORS]: every binary operator except
    [FloorDiv]; both unary operators are in the table. *)
Definition allowed_binop (o : binop) : bool :=
  match o with FloorDiv => false | _ => true end.

(** The inner [_eval] of [safe_eval]. *)
Fixpoint _eval (n : node) : res (pyval N) :=
  match n with
  | Constant (CInt z) => Ok (VInt z)
  | Constant (CFloat l) => Ok (VNum (num_of_literal l))
  | Constant CEllipsis => Raise (ValueError "Only numeric constants are allowed")
  | BinOp l o r =>
      left <- _eval l ;;
      right <- _eval r ;;
      if allowed_binop o then py_binop o left right
      else Raise (ValueError "Operator not allowed")
  | UnaryOp o e =>
      operand <- _eval e ;;
      Ok (py_unaryop o operand)
  | _ => Raise (ValueError "Expression contains disallowed elements")
  end.

Definition safe_eval (expr : string) : res (pyval N) :=
  let expr := Py.strip (Py.replace expr "," "") in
  if expr =? "" then Raise (ValueError "Empty expression")
  else match ast_parse expr with
       | None => Raise (ValueError "Invalid expression syntax")
       | Some node => _eval node
       end.

(** [prettify_number] *)
Definition prettify_number (v : pyval N) : string :=
  match v with VInt z => Py.str_of_int z | VNum f => num_pretty f end.

(** Lines 264-277: the whitelist gate, then the guarded call of the
    evaluator [ev] (which is [safe_eval] in [handle_user_command]); the
    [except Exception] of line 272 turns a raised exception into a
    reported outcome. *)
Inductive eval_outcome : Type :=
| Evaluated (v : pyval N)
| EvalError (e : pyexc)
| DisallowedCharacter.

Definition evaluate (ev : string -> res (pyval N)) (expr_for_eval : string)
  : eval_outcome :=
  if Py.all_chars allowed_char expr_for_eval then
    match ev expr_for_eval with
    | Ok v => Evaluated v
    | Raise e => EvalError e
    end
  else DisallowedCharacter.

End Eval.
Arguments eval_outcome N : clear implicits.

(* ------------------------------------------------------------------ *)
(** ** The command handler (lines 140-307) *)

(** What the handler says, through [speak]. *)
Inductive message : Type :=
| MsgDidntCatch                   (* "I didn't catch that. Could you say it again, please?" *)
| MsgGoodbye                      (* "Okay - I'll be here if you need me. Goodbye!" *)
| MsgOpeningYouTube
| MsgOpeningGoogle
| MsgResult (pretty : string)     (* "The result is {pretty}" *)
| MsgWhatDefine                   (* "What would you like me to define?" *)
| MsgSearching (term : string)    (* "Searching for {term} - here's what I found." *)
| MsgDefinition (text : string)   (* the definition found *)
| MsgNotFound                     (* "I couldn't find a short definition. ..." *)
| MsgSorry                        (* "Sorry, I didn't quite understand. ..." *)
| MsgWelcome                      (* "Hi - I'm your assistant. ..." *)
| MsgYes                          (* "Yes? What can I help you with?" *)
| MsgSayAgain.                    (* "I didn't catch that. Could you say it again?" *)

(** Console-only output ([print], or [speak(..., say_aloud=False)]). *)
Inductive log : Type :=
| LogCouldNotEvaluate (expr : string) (e : pyexc)
| LogUnsafe (expr : string)
| LogLookingUp (term : string)
| LogNoWakeWord.

(** Observable effects, in order. [Lookup term] is the call of the external
    definition sources (Wikipedia, then DuckDuckGo). *)
Inductive effect : Type :=
| Speak (m : message)
| Print (l : log)
| OpenUrl (url : string)
| Lookup (term : string).

Definition prepend {A} (pre : list effect) (r : list effect * A) : list effect * A :=
  ((pre ++ fst r)%list, snd r).

(** Truthiness of a returned definition ([if defn:]). *)
Definition truthy (o : option string) : bool :=
  match o with Some d => negb (d =? "") | None => false end.

(** The Wikipedia and DuckDuckGo lookups, as one collaborator. *)
Definition external_lookup := string -> option string.

Definition lookup_definition (ext : external_lookup) (term : string)
  : list effect * option string :=
  let term := Py.strip term in
  if term =? "" then ([], None)
  else ([Print (LogLookingUp term); Lookup term], ext term).

(** [is_probably_arithmetic] *)
Definition arith_operators : list string :=
  ["+"; "-"; "*"; "/"; "%"; "plus"; "minus"; "times"; "divided"; "divide";
   "over"; "mod"; "power"; "**"].

Definition is_probably_arithmetic (text : string) : bool :=
  let tokenized := Py.lower text in
  Py.any_char Py.is_digit tokenized ||
  existsb (fun o => Py.contains o tokenized) arith_operators.

Definition exit_words : list string := ["exit"; "quit"; "stop"; "goodbye"; "bye"].

(** Line 238 *)
Definition arith_starts : list string := ["calculate"; "what is"; "evaluate"; "compute"].

(** Lines 240-244: the first trigger that matches is removed. *)
Definition strip_triggers : list string := ["calculate"; "evaluate"; "compute"; "what is"].

Fixpoint strip_trigger (trigs : list string) (expr : string) : string :=
  match trigs with
  | [] => expr
  | trig :: trigs' =>
      if Py.startswith expr trig
      then Py.strip (Py.drop (String.length trig) expr)
      else strip_trigger trigs' expr
  end.

Definition def_prefixes : list string :=
  ["define "; "definition of "; "what is "; "what's "; "tell me about "].

Definition articles : list string := ["a "; "an "; "the "].

(** Lines 283-285: the loop has no [break], each article is tried in turn. *)
Definition strip_articles (term : string) : string :=
  fold_left (fun t art => if Py.startswith t art
                          then Py.drop (String.length art) t else t)
            articles term.

(** Lines 280-296, one prefix at a time; [None] when no prefix matches. *)
Fixpoint prefixed_definition (ext : external_lookup) (prefixes : list string)
  (text : string) : option (list effect * option string) :=
  match prefixes with
  | [] => None
  | prefix :: ps =>
      if Py.startswith text prefix then
        let term := strip_articles (Py.strip (Py.drop (String.length prefix) text)) in
        if term =? "" then Some ([Speak MsgWhatDefine], None)
        else
          let (eff, defn) := lookup_definition ext term in
          let reply := match defn with
                       | Some d => if truthy defn then Speak (MsgDefinition d)
                                   else Speak MsgNotFound
                       | None => Speak MsgNotFound
                       end in
          Some (Speak (MsgSearching term) :: (eff ++ [reply])%list, None)
      else prefixed_definition ext ps text
  end.

(** Lines 280-307: the definition rules and the final apology. *)
Definition definition_rules (ext : external_lookup) (text : string)
  : list effect * option string :=
  match prefixed_definition ext def_prefixes text with
  | Some r => r
  | None =>
      if (List.length (Py.split text) <=? 3)%nat then
        let (eff, defn) := lookup_definition ext text in
        match defn with
        | Some d => if truthy defn then ((eff ++ [Speak (MsgDefinition d)])%list, None)
                    else ((eff ++ [Speak MsgSorry])%list, None)
        | None => ((eff ++ [Speak MsgSorry])%list, None)
        end
      else ([Speak MsgSorry], None)
  end.

Section Handler.
Context {N : Type} `{NumSem N}.

(** [handle_user_command]: the effects, and the return value
    ([Some "exit"] or [None]). *)
Definition handle_user_command (ext : external_lookup) (command_text : string)
  : list effect * option string :=
  if command_text =? "" then ([Speak MsgDidntCatch], None) else
  let text := Py.lower (Py.strip command_text) in
  if existsb (fun w => Py.contains w text) exit_words
  then ([Speak MsgGoodbye], Some "exit") else
  if Py.contains "open youtube" text || (text =? "youtube")
  then ([Speak MsgOpeningYouTube; OpenUrl "https://www.youtube.com"], None) else
  if Py.contains "open google" text || (text =? "google")
  then ([Speak MsgOpeningGoogle; OpenUrl "https://www.google.com"], None) else
  if is_probably_arithmetic text || existsb (Py.startswith text) arith_starts then
    let expr := strip_trigger strip_triggers text in
    let expr_for_eval := normalize expr in
    match evaluate safe_eval expr_for_eval with
    | Evaluated result => ([Speak (MsgResult (prettify_number result))], None)
    | EvalError e =>
        prepend [Print (LogCouldNotEvaluate expr_for_eval e)] (definition_rules ext text)
    | DisallowedCharacter =>
        prepend [Print (LogUnsafe expr_for_eval)] (definition_rules ext text)
    end
  else definition_rules ext text.

End Handler.

(* ------------------------------------------------------------------ *)
(** ** The main loop (lines 312-352) *)

Definition WAKE_WORD : string := "assistant".
Definition MAX_RETRIES : nat := 2.

(** [s.split(needle, 1)[1]] when [needle in s]. *)
Fixpoint after_first (needle s : string) : string :=
  if String.prefix needle s then Py.drop (String.length needle) s
  else match s with
       | EmptyString => EmptyString
       | String _ r => after_first needle r
       end.

(** [if not spoken] / [if follow]: [listen_from_mic] returned [None] or an
    empty string. *)
Definition heard_nothing (heard : option string) : bool :=
  match heard with None => true | Some s => s =? "" end.

Definition is_exit (r : option string) : bool :=
  match r with Some s => s =? "exit" | None => false end.

(** The position in the loop: waiting for an utterance at the top of the
    [while], or inside the retry [for] loop with [attempts_remaining]
    iterations left. *)
Inductive SessionState : Type :=
| Idle
| AwaitingFollowup (attempts_remaining : nat).

(** The state after the retry loop has [k] iterations left; with none left
    the [for] ends and the [continue] goes back to the top. *)
Definition followup_state (k : nat) : SessionState :=
  match k with O => Idle | _ => AwaitingFollowup k end.

Inductive session_end : Type :=
| Listening (st : SessionState)   (* the listen results ran out *)
| Exited.                         (* [return] after an "exit" *)

Section Session.
Context {N : Type} `{NumSem N}.
Variable ext : external_lookup.

(** One [listen_from_mic] result consumed per step. *)
Fixpoint run (st : SessionState) (inputs : list (option string))
  : list effect * session_end :=
  match inputs with
  | [] => ([], Listening st)
  | heard :: rest =>
      match st with
      | Idle =>
          match heard with
          | None => run Idle rest
          | Some spoken =>
              if spoken =? "" then run Idle rest
              else if Py.contains WAKE_WORD spoken then
                let after := Py.strip (after_first WAKE_WORD spoken) in
                if after =? "" then
                  prepend [Speak MsgYes] (run (followup_state MAX_RETRIES) rest)
                else
                  let (eff, result) := handle_user_command ext after in
                  if is_exit result then (eff, Exited)
                  else prepend eff (run Idle rest)
              else prepend [Print LogNoWakeWord] (run Idle rest)
          end
      | AwaitingFollowup k =>
          match heard with
          | Some follow =>
              if follow =? "" then
                prepend [Speak MsgSayAgain] (run (followup_state (k - 1)) rest)
              else
                let (eff, result) := handle_user_command ext follow in
                if is_exit result then (eff, Exited)
                else prepend eff (run Idle rest)
          | None => prepend [Speak MsgSayAgain] (run (followup_state (k - 1)) rest)
          end
      end
  end.

Definition main (inputs : list (option string)) : list effect * session_end :=
  prepend [Speak MsgWelcome] (run Idle inputs).

End Session.

End Assistant.

(** A trivial instance of the float semantics, used to state closed
    examples whose inputs only involve integer arithmetic. *)
#[export] Instance unit_num : Assistant.NumSem unit := {|
  Assistant.num_of_literal := fun _ => tt;
  Assistant.num_binop := fun _ _ _ => Assistant.Raise Assistant.OverflowError;
  Assistant.num_neg := fun x => x;
  Assistant.num_pretty := fun _ => "<float>"
|}.

(** The lookup that finds nothing (both sources fail). *)
Definition no_lookup : Assistant.external_lookup := fun _ => None.

(* ------------------------------------------------------------------ *)
(** ** [speak] (lines 36-46) *)

(** [sep.join(words)] *)
Fixpoint join (sep : string) (words : list string) : string :=
  match words with
  | [] => EmptyString
  | [w] => w
  | w :: ws => w ++ sep ++ join sep ws
  end.

(** Line 42: the text that [speak] prints and says, [" ".join(text.split())]. *)
Definition speak_text (text : string) : string := join " " (Py.split text).

(* ------------------------------------------------------------------ *)
(** ** Auxiliary predicates used in the statements below *)


(** The messages the definition rules (lines 280-307) can speak. *)
Definition definition_message (m : Assistant.message) : bool :=
  match m with
  | Assistant.MsgWhatDefine | Assistant.MsgSearching _ | Assistant.MsgDefinition _
  | Assistant.MsgNotFound | Assistant.MsgSorry => true
  | _ => false
  end.

(** [listen_from_mic] heard something that does not contain the wake word. *)
Definition lacks_wake_word (heard : option string) : bool :=
  match heard with
  | Some s => negb (Py.contains Assistant.WAKE_WORD s)
  | None => true
  end.

(* ================================================================== *)
(** * Lemmas on the string functions *)

Module StrFacts.

Lemma is_space_lower_char (c : ascii) : Py.is_space (Py.lower_char c) = Py.is_space c.
Proof. destruct c as [[] [] [] [] [] [] [] []]; reflexivity. Qed.

Lemma lower_empty (s : string) : Py.lower s = "" <-> s = "".
Proof. destruct s; simpl; split; congruence. Qed.

Lemma lstrip_lower (s : string) : Py.lstrip (Py.lower s) = Py.lower (Py.lstrip s).
Proof.
  induction s as [|c r IH]; simpl; [reflexivity|].
  rewrite is_space_lower_char. destruct (Py.is_space c); [exact IH | reflexivity].
Qed.

Lemma rstrip_lower (s : string) : Py.rstrip (Py.lower s) = Py.lower (Py.rstrip s).
Proof.
  induction s as [|c r IH]; simpl; [reflexivity|].
  rewrite IH, is_space_lower_char.
  destruct (Py.rstrip r); simpl; [destruct (Py.is_space c)|]; reflexivity.
Qed.

Lemma lstrip_lstrip (s : string) : Py.lstrip (Py.lstrip s) = Py.lstrip s.
Proof.
  induction s as [|c r IH]; simpl; [reflexivity|].
  destruct (Py.is_space c) eqn:E; [exact IH|simpl; rewrite E; reflexivity].
Qed.

Lemma rstrip_cons (c : ascii) (r : string) :
  Py.rstrip (String c r) =
  match Py.rstrip r with
  | EmptyString => if Py.is_space c then EmptyString else String c EmptyString
  | _ => String c (Py.rstrip r)
  end.
Proof. reflexivity. Qed.

Lemma rstrip_rstrip (s : string) : Py.rstrip (Py.rstrip s) = Py.rstrip s.
Proof.
  induction s as [|c r IH]; [reflexivity|]. rewrite rstrip_cons.
  destruct (Py.rstrip r) as [|d r'] eqn:E.
  - destruct (Py.is_space c) eqn:Ec; simpl; [reflexivity|rewrite Ec; reflexivity].
  - rewrite rstrip_cons, IH. reflexivity.
Qed.

Lemma lstrip_rstrip (s : string) : Py.lstrip (Py.rstrip s) = Py.rstrip (Py.lstrip s).
Proof.
  induction s as [|c r IH]; simpl; [reflexivity|].
  destruct (Py.is_space c) eqn:Ec.
  - rewrite <- IH. destruct (Py.rstrip r); simpl; [reflexivity|rewrite Ec; reflexivity].
  - simpl. destruct (Py.rstrip r); simpl; rewrite Ec; reflexivity.
Qed.

Lemma strip_strip (s : string) : Py.strip (Py.strip s) = Py.strip s.
Proof.
  unfold Py.strip. rewrite <- lstrip_rstrip, rstrip_rstrip, lstrip_rstrip,
    lstrip_lstrip. reflexivity.
Qed.

Lemma strip_lower (s : string) : Py.strip (Py.lower s) = Py.lower (Py.strip s).
Proof. unfold Py.strip. rewrite lstrip_lower, rstrip_lower. reflexivity. Qed.

(** The text classified by [handle_user_command] is stripped. *)
Lemma strip_command_text (c : string) :
  Py.strip (Py.lower (Py.strip c)) = Py.lower (Py.strip c).
Proof. rewrite strip_lower, strip_strip. reflexivity. Qed.

Lemma rstrip_command_text (c : string) :
  Py.rstrip (Py.lower (Py.strip c)) = Py.lower (Py.strip c).
Proof.
  rewrite rstrip_lower. f_equal. unfold Py.strip. apply rstrip_rstrip.
Qed.

Lemma rstrip_app_space (s : string) : Py.rstrip (s ++ " ") = Py.rstrip s.
Proof.
  induction s as [|c r IH]; simpl; [reflexivity|]. rewrite IH. reflexivity.
Qed.

Lemma strip_pad (s : string) : Py.strip (" " ++ s ++ " ") = Py.strip s.
Proof.
  unfold Py.strip. rewrite <- !lstrip_rstrip. simpl.
  rewrite rstrip_app_space. destruct (Py.rstrip s); reflexivity.
Qed.

Lemma rstrip_length (s : string) : String.length (Py.rstrip s) <= String.length s.
Proof.
  induction s as [|c r IH]; simpl; [lia|].
  destruct (Py.rstrip r); simpl in *; [destruct (Py.is_space c); simpl|]; lia.
Qed.

Lemma length_app (a b : string) : String.length (a ++ b) = String.length a + String.length b.
Proof. induction a; simpl; congruence. Qed.

Lemma app_empty_r (a : string) : (a ++ "")%string = a.
Proof. induction a; simpl; congruence. Qed.

(** A right-stripped string cannot end in a space. *)
Lemma rstrip_fixed_not_space_end (x : string) : Py.rstrip (x ++ " ") <> (x ++ " ")%string.
Proof.
  intro E. pose proof (rstrip_length x). rewrite rstrip_app_space in E.
  apply (f_equal String.length) in E. rewrite length_app in E. simpl in E. lia.
Qed.

(** A non-empty suffix of a right-stripped string is right-stripped. *)
Lemma rstrip_fixed_suffix (a b : string) :
  Py.rstrip (a ++ b) = (a ++ b)%string -> b <> "" -> Py.rstrip b = b.
Proof.
  induction a as [|c a' IH]; simpl; intros E Hb; [exact E|].
  apply IH; [|exact Hb].
  destruct (Py.rstrip (a' ++ b)) as [|d r'] eqn:Er.
  - exfalso. destruct (Py.is_space c); [discriminate|].
    injection E as E. destruct a', b; simpl in E; congruence.
  - injection E as E. exact E.
Qed.

Lemma prefix_app (p t : string) :
  String.prefix p t = true -> t = (p ++ Py.drop (String.length p) t)%string.
Proof.
  revert t. induction p as [|c p' IH]; intros t H; simpl; [reflexivity|].
  destruct t as [|d t']; simpl in H; [discriminate|].
  destruct (ascii_dec c d) as [->|]; [|discriminate].
  simpl. f_equal. apply IH. exact H.
Qed.

Lemma lstrip_suffix (s : string) : exists a, s = (a ++ Py.lstrip s)%string.
Proof.
  induction s as [|c r [a IH]]; simpl; [exists ""; reflexivity|].
  destruct (Py.is_space c).
  - exists (String c a). simpl. congruence.
  - exists "". reflexivity.
Qed.

Lemma lstrip_empty_rstrip (s : string) : Py.lstrip s = "" -> Py.rstrip s = "".
Proof.
  induction s as [|c r IH]; simpl; [reflexivity|].
  destruct (Py.is_space c) eqn:Ec; [|discriminate].
  intro H. rewrite (IH H). reflexivity.
Qed.

(** Stripping a non-empty right-stripped string keeps it non-empty and
    right-stripped. *)
Lemma strip_keeps_end (r : string) :
  r <> "" -> Py.rstrip r = r -> Py.strip r <> "" /\ Py.rstrip (Py.strip r) = Py.strip r.
Proof.
  intros Hne Hr.
  destruct (Py.lstrip r) as [|c l] eqn:El.
  - exfalso. apply Hne. rewrite <- Hr. apply lstrip_empty_rstrip. exact El.
  - destruct (lstrip_suffix r) as [a Ea]. rewrite El in Ea.
    assert (Hl : Py.rstrip (String c l) = String c l).
    { apply (rstrip_fixed_suffix a); [rewrite <- Ea; exact Hr|discriminate]. }
    unfold Py.strip. rewrite El, Hl. split; [discriminate|exact Hl].
Qed.

(** [replace] leaves a string without the key unchanged. *)
Lemma replace_absent (s old new : string) :
  Py.contains old s = false -> Py.replace s old new = s.
Proof.
  intro H. destruct old as [|o os]; [destruct s; discriminate|].
  unfold Py.replace. induction s as [|c r IH]; [reflexivity|].
  simpl in H |- *. apply orb_false_iff in H as [H1 H2].
  simpl in H1. rewrite H1. f_equal. apply IH. exact H2.
Qed.

End StrFacts.

(* ================================================================== *)
(** * The claims *)

Import Assistant PyParse.

Lemma all_chars_any_not (p : ascii -> bool) (s : string) :
  Py.any_char (fun c => negb (p c)) s = true -> Py.all_chars p s = false.
Proof.
  induction s as [|c r IH]; simpl; [discriminate|].
  destruct (p c); simpl; auto.
Qed.

(** C1: for every string containing a character outside the whitelist
    [0-9 + - * / ( ) . space %], the guarded evaluation of lines 264-277
    reports [DisallowedCharacter], whatever the evaluator behind the gate
    does: the evaluator is never consulted, so nothing is parsed or
    evaluated. *)
Theorem evaluate_rejects_disallowed_character {N : Type}
  (ev : string -> res (pyval N)) (expr : string)
  (Hbad : Py.any_char (fun c => negb (allowed_char c)) expr = true) :
  evaluate ev expr = DisallowedCharacter.
Proof.
  unfold evaluate. rewrite (all_chars_any_not _ _ Hbad). reflexivity.
Qed.

Lemma evaluate_rejects_disallowed_character_witness :
  Py.any_char (fun c => negb (allowed_char c)) "2 x 3" = true /\
  evaluate (N := unit) safe_eval "2 x 3" = DisallowedCharacter.
Proof.
  split; [reflexivity|].
  apply (evaluate_rejects_disallowed_character safe_eval "2 x 3"). reflexivity.
Defined.

(** C2 (fails): the spoken form "5 minus minus 3" of the valid expression
    [5 - -3] normalises to "5 - minus 3", because the first replacement of
    " minus " consumes the space the second occurrence needs; the gate then
    rejects it, although the symbolic form evaluates to 8.  The example of
    the claim holds: "23 times 7" normalises to "23 * 7", which evaluates
    to 161. *)
Theorem normalize_misses_repeated_operator_word {N : Type} `{NumSem N} :
  normalize "5 minus minus 3" = "5 - minus 3" /\
  evaluate safe_eval (normalize "5 minus minus 3") = DisallowedCharacter /\
  evaluate safe_eval "5 - - 3" = Evaluated (VInt 8) /\
  normalize "23 times 7" = "23 * 7" /\
  evaluate safe_eval (normalize "23 times 7") = Evaluated (VInt 161).
Proof. repeat split; vm_compute; reflexivity. Qed.

(** C3: "10 / 0" and "10 % 0" pass the gate, [safe_eval] raises
    [ZeroDivisionError], and the guarded evaluation reports it as an
    outcome; the command handler logs it and carries on with the
    definition rules, returning [None]. *)
Theorem evaluate_division_by_zero {N : Type} `{NumSem N} (ext : external_lookup) :
  safe_eval "10 / 0" = Raise ZeroDivisionError /\
  safe_eval "10 % 0" = Raise ZeroDivisionError /\
  evaluate safe_eval "10 / 0" = EvalError ZeroDivisionError /\
  evaluate safe_eval "10 % 0" = EvalError ZeroDivisionError /\
  (exists eff, handle_user_command ext "calculate 10 / 0" =
     (Print (LogCouldNotEvaluate "10 / 0" ZeroDivisionError) :: eff, None)) /\
  (exists eff, handle_user_command ext "calculate 10 % 0" =
     (Print (LogCouldNotEvaluate "10 % 0" ZeroDivisionError) :: eff, None)).
Proof.
  repeat split; try (vm_compute; reflexivity).
  - eexists. vm_compute. reflexivity.
  - eexists. vm_compute. reflexivity.
Qed.

(** C4: "what is 23 times 7" also starts with the definition prefix
    "what is ", but the arithmetic rule is tried first: the handler says
    "The result is 161" and performs no lookup. *)
Theorem what_is_23_times_7_is_arithmetic {N : Type} `{NumSem N} (ext : external_lookup) :
  Py.startswith "what is 23 times 7" "what is " = true /\
  handle_user_command ext "what is 23 times 7" = ([Speak (MsgResult "161")], None).
Proof. split; vm_compute; reflexivity. Qed.

(** C7 (fails): the replacements run in the order of the dict literal
    (plus, minus, times, multiplied by, divided by, over, mod, modulo, to
    the power of, power of), not in the order of the specification; the
    orders give different results. *)
Theorem normalize_order_counterexample :
  normalize "2 to the power of minus 3" = "2**- 3" /\
  normalize_spec_order "2 to the power of minus 3" = "2**minus 3".
Proof. split; vm_compute; reflexivity. Qed.

(** C8 (fails): normalising twice rewrites an operator word the first pass
    skipped. *)
Theorem normalize_not_idempotent :
  normalize "1 plus plus 2" = "1 + plus 2" /\
  normalize (normalize "1 plus plus 2") = "1 + + 2".
Proof. split; vm_compute; reflexivity. Qed.

(** ** Helper lemmas for the command handler and the session loop *)

Lemma replace_all_absent (table : list (string * string)) (s : string) :
  forallb (fun kv => negb (Py.contains (fst kv) s)) table = true ->
  replace_all table s = s.
Proof.
  unfold replace_all. revert s. induction table as [|[k v] t IH]; intros s H;
    simpl in *; [reflexivity|].
  apply andb_true_iff in H as [H1 H2]. apply negb_true_iff in H1.
  rewrite (StrFacts.replace_absent _ _ _ H1). apply IH. exact H2.
Qed.

Lemma prefixed_definition_none (ext : external_lookup) (ps : list string) (t : string) :
  existsb (Py.startswith t) ps = false -> prefixed_definition ext ps t = None.
Proof.
  induction ps as [|p ps IH]; simpl; [reflexivity|].
  intro H. apply orb_false_iff in H as [H1 H2]. rewrite H1. apply IH. exact H2.
Qed.

Lemma lookup_definition_stripped (ext : external_lookup) (t : string) :
  Py.strip t = t -> t <> "" ->
  lookup_definition ext t = ([Print (LogLookingUp t); Lookup t], ext t).
Proof.
  intros Hs Hne. unfold lookup_definition. rewrite Hs.
  apply String.eqb_neq in Hne. rewrite Hne. reflexivity.
Qed.

Lemma prepend_prepend {A} (a b : list effect) (r : list effect * A) :
  prepend a (prepend b r) = prepend (a ++ b) r.
Proof. unfold prepend. simpl. rewrite app_assoc. reflexivity. Qed.

Lemma prepend_nil {A} (r : list effect * A) : prepend [] r = r.
Proof. destruct r; reflexivity. Qed.

(** [k] listens in a row that hear nothing use up the retry loop: each is
    answered with the re-prompt, and the loop ends at the top of the
    [while]. *)
Lemma followup_silent {N : Type} `{NumSem N} (ext : external_lookup)
  (silent rest : list (option string)) :
  forallb heard_nothing silent = true ->
  run ext (followup_state (List.length silent)) (silent ++ rest) =
  prepend (repeat (Speak MsgSayAgain) (List.length silent)) (run ext Idle rest).
Proof.
  induction silent as [|h sil IH]; intro Hs; simpl.
  - rewrite prepend_nil. reflexivity.
  - simpl in Hs. apply andb_true_iff in Hs as [Hh Hsil].
    rewrite Nat.sub_0_r.
    destruct h as [f|]; simpl in Hh.
    + apply String.eqb_eq in Hh. subst f. simpl.
      rewrite IH by exact Hsil. rewrite prepend_prepend. reflexivity.
    + rewrite IH by exact Hsil. rewrite prepend_prepend. reflexivity.
Qed.

(** C5: when the arithmetic rule fires but the normalised expression fails
    the gate or fails to evaluate, the handler logs the failure and
    continues with the definition rules on the same text; in particular
    "what is the moon" is a definition query for "moon". *)
Theorem arithmetic_failure_falls_through {N : Type} `{NumSem N}
  (ext : external_lookup) (command_text : string)
  (t := Py.lower (Py.strip command_text))
  (Hne : command_text <> "")
  (Hexit : existsb (fun w => Py.contains w t) exit_words = false)
  (Hyoutube : (Py.contains "open youtube" t || (t =? "youtube")) = false)
  (Hgoogle : (Py.contains "open google" t || (t =? "google")) = false)
  (Harith : (is_probably_arithmetic t || existsb (Py.startswith t) arith_starts) = true)
  (Hfail : match evaluate safe_eval (normalize (strip_trigger strip_triggers t)) with
           | Evaluated _ => false | _ => true end = true) :
  (exists l, handle_user_command ext command_text =
             prepend [Print l] (definition_rules ext t)) /\
  (exists reply, handle_user_command ext "what is the moon" =
     ([Print (LogUnsafe "the moon"); Speak (MsgSearching "moon");
       Print (LogLookingUp "moon"); Lookup "moon"; reply], None)).
Proof.
  split.
  - unfold handle_user_command. apply String.eqb_neq in Hne. rewrite Hne.
    fold t. rewrite Hexit, Hyoutube, Hgoogle, Harith.
    destruct (evaluate safe_eval (normalize (strip_trigger strip_triggers t)));
      [discriminate| eexists; reflexivity | eexists; reflexivity].
  - eexists. vm_compute. reflexivity.
Qed.

Lemma arithmetic_failure_falls_through_witness :
  (exists l, handle_user_command (N := unit) no_lookup "what is the moon" =
             prepend [Print l] (definition_rules no_lookup "what is the moon")).
Proof.
  refine (proj1 (arithmetic_failure_falls_through (N := unit) no_lookup
                   "what is the moon" _ _ _ _ _ _));
    [discriminate | reflexivity ..].
Defined.

(** C6: a text that matches neither the exit nor the open-site rule, for
    which the arithmetic rule does not produce a result, which starts with
    no definition prefix and has at most three tokens, is handed as a whole
    to [lookup_definition] (lines 299-300): the term is the entire text.
    [lookup_definition] strips it and queries the sources with it when it
    is not blank; the definition found is spoken, and on a miss the
    generic apology is.  Only the empty command is answered before
    (line 216). *)
Theorem short_fallback_looks_up_whole_text {N : Type} `{NumSem N}
  (ext : external_lookup) (command_text : string)
  (t := Py.lower (Py.strip command_text))
  (Hc : command_text <> "")
  (Hexit : existsb (fun w => Py.contains w t) exit_words = false)
  (Hyoutube : (Py.contains "open youtube" t || (t =? "youtube")) = false)
  (Hgoogle : (Py.contains "open google" t || (t =? "google")) = false)
  (Harith : (negb (is_probably_arithmetic t || existsb (Py.startswith t) arith_starts)
             || match evaluate safe_eval (normalize (strip_trigger strip_triggers t)) with
                | Evaluated _ => false | _ => true end) = true)
  (Hprefix : existsb (Py.startswith t) def_prefixes = false)
  (Htokens : (List.length (Py.split t) <= 3)%nat) :
  exists pre : list log, (List.length pre <= 1)%nat /\
    handle_user_command ext command_text =
      ((map Print pre ++
        (if t =? "" then [] else [Print (LogLookingUp t); Lookup t]) ++
        [match (if t =? "" then None else ext t) with
         | Some d => if d =? "" then Speak MsgSorry else Speak (MsgDefinition d)
         | None => Speak MsgSorry
         end])%list, None).
Proof.
  assert (Hdef : definition_rules ext t =
    (((if t =? "" then [] else [Print (LogLookingUp t); Lookup t]) ++
      [match (if t =? "" then None else ext t) with
       | Some d => if d =? "" then Speak MsgSorry else Speak (MsgDefinition d)
       | None => Speak MsgSorry
       end])%list, None)).
  { unfold definition_rules. rewrite (prefixed_definition_none _ _ _ Hprefix).
    apply Nat.leb_le in Htokens. rewrite Htokens.
    destruct (t =? "") eqn:Et.
    - apply String.eqb_eq in Et. unfold lookup_definition.
      replace (Py.strip t) with t by (symmetry; apply StrFacts.strip_command_text).
      rewrite Et. reflexivity.
    - apply String.eqb_neq in Et.
      rewrite lookup_definition_stripped;
        [|apply StrFacts.strip_command_text | exact Et].
      destruct (ext t) as [d|]; [|reflexivity].
      unfold truthy. destruct (d =? ""); reflexivity. }
  unfold handle_user_command. apply String.eqb_neq in Hc. rewrite Hc.
  fold t. rewrite Hexit, Hyoutube, Hgoogle.
  destruct (is_probably_arithmetic t || existsb (Py.startswith t) arith_starts) eqn:Ea;
    try rewrite Ea in Harith.
  - cbn [negb orb] in Harith.
    destruct (evaluate safe_eval (normalize (strip_trigger strip_triggers t))) eqn:Ev;
      try rewrite Ev in Harith; [discriminate| |]; rewrite Hdef.
    + exists [LogCouldNotEvaluate (normalize (strip_trigger strip_triggers t)) e].
      split; [simpl; lia | reflexivity].
    + exists [LogUnsafe (normalize (strip_trigger strip_triggers t))].
      split; [simpl; lia | reflexivity].
  - rewrite Hdef. exists []. split; [simpl; lia | reflexivity].
Qed.

Lemma short_fallback_looks_up_whole_text_witness :
  (exists pre : list log, (List.length pre <= 1)%nat /\
    handle_user_command (N := unit) no_lookup "xyzzy" =
      ((map Print pre ++ [Print (LogLookingUp "xyzzy"); Lookup "xyzzy"] ++ [Speak MsgSorry])%list, None)) /\
  (exists pre : list log, (List.length pre <= 1)%nat /\
    handle_user_command (N := unit) no_lookup "  " =
      ((map Print pre ++ [] ++ [Speak MsgSorry])%list, None)).
Proof.
  split.
  - exact (short_fallback_looks_up_whole_text (N := unit) no_lookup "xyzzy"
             ltac:(discriminate) eq_refl eq_refl eq_refl eq_refl eq_refl
             ltac:(vm_compute; lia)).
  - exact (short_fallback_looks_up_whole_text (N := unit) no_lookup "  "
             ltac:(discriminate) eq_refl eq_refl eq_refl eq_refl eq_refl
             ltac:(vm_compute; lia)).
Defined.

(** C7, as the code does it: [normalize] runs the ten replacements in the
    order of the dict literal (so " minus " is replaced before
    " to the power of "), only rewrites occurrences of the padded phrases
    (a text whose padded form contains none of them is only stripped, so
    words such as "surplus" or "overt" are untouched), and returns a
    stripped string. *)
Theorem normalize_code_order :
  normalize "2 to the power of minus 3" = "2**- 3" /\
  (forall s, Py.strip (normalize s) = normalize s) /\
  (forall s, forallb (fun kv => negb (Py.contains (fst kv) (" " ++ s ++ " ")))
                     replacements = true ->
             normalize s = Py.strip s).
Proof.
  split; [vm_compute; reflexivity|]. split.
  - intro s. unfold normalize. apply StrFacts.strip_strip.
  - intros s Hs. unfold normalize. rewrite (replace_all_absent _ _ Hs).
    apply StrFacts.strip_pad.
Qed.

Lemma normalize_code_order_witness :
  forallb (fun kv => negb (Py.contains (fst kv) (" " ++ "surplus overt" ++ " ")))
          replacements = true /\
  normalize "surplus overt" = Py.strip "surplus overt".
Proof.
  split; [vm_compute; reflexivity|].
  apply (proj2 (proj2 normalize_code_order)). vm_compute. reflexivity.
Defined.

(** C9: from [Idle], an utterance with the wake word and nothing after it
    is answered with the prompt; then, when all [MAX_RETRIES] follow-up
    listens hear nothing, each of them is answered with the re-prompt (the
    retries remaining before it were [MAX_RETRIES], ..., 1), the controller
    gives up without a further word and is back in [Idle] without having
    dispatched any command. *)
Theorem wake_word_alone_then_silence {N : Type} `{NumSem N}
  (ext : external_lookup) (spoken : string) (silent rest : list (option string))
  (Hspoken : spoken <> "")
  (Hwake : Py.contains WAKE_WORD spoken = true)
  (Hafter : Py.strip (after_first WAKE_WORD spoken) = "")
  (Hlen : List.length silent = MAX_RETRIES)
  (Hsilent : forallb heard_nothing silent = true) :
  run ext Idle (Some spoken :: silent ++ rest) =
  prepend (Speak MsgYes :: repeat (Speak MsgSayAgain) MAX_RETRIES) (run ext Idle rest).
Proof.
  rewrite <- Hlen. cbn [run]. apply String.eqb_neq in Hspoken.
  rewrite Hspoken, Hwake, Hafter. cbn [String.eqb].
  rewrite <- Hlen, (followup_silent ext silent rest Hsilent), prepend_prepend.
  reflexivity.
Qed.

Lemma wake_word_alone_then_silence_witness :
  run (N := unit) no_lookup Idle (Some "hey assistant" :: [None; Some ""] ++ []) =
  prepend (Speak MsgYes :: repeat (Speak MsgSayAgain) MAX_RETRIES)
          (run (N := unit) no_lookup Idle []).
Proof.
  apply (wake_word_alone_then_silence no_lookup "hey assistant" [None; Some ""] []);
    [discriminate | reflexivity ..].
Defined.

(** ** The empty-term branch of the prefixed definition rule *)

Lemma str_app_assoc (a b c : string) : ((a ++ b) ++ c)%string = (a ++ (b ++ c))%string.
Proof. induction a; simpl; congruence. Qed.

Definition ends_in_space (p : string) : Prop := exists x, p = (x ++ " ")%string.

(** What follows a prefix ending in a space, in a right-stripped text, is
    non-empty and right-stripped. *)
Lemma rest_after_prefix (t p : string) :
  ends_in_space p -> Py.rstrip t = t -> Py.startswith t p = true ->
  Py.drop (String.length p) t <> "" /\
  Py.rstrip (Py.drop (String.length p) t) = Py.drop (String.length p) t.
Proof.
  intros [x ->] Ht Hp. pose proof (StrFacts.prefix_app _ _ Hp) as E.
  set (r := Py.drop (String.length (x ++ " ")) t) in *.
  assert (Hr : r <> "").
  { intro Er. rewrite Er, StrFacts.app_empty_r in E. rewrite E in Ht.
    exact (StrFacts.rstrip_fixed_not_space_end x Ht). }
  split; [exact Hr|].
  apply (StrFacts.rstrip_fixed_suffix (x ++ " ")); [rewrite <- E; exact Ht | exact Hr].
Qed.

Lemma strip_articles_nonempty (term : string) :
  term <> "" -> Py.rstrip term = term -> strip_articles term <> "".
Proof.
  unfold strip_articles.
  assert (Ha : Forall ends_in_space articles).
  { repeat constructor; [exists "a" | exists "an" | exists "the"]; reflexivity. }
  revert term. induction articles as [|art arts IH]; intros term Hne Hr; simpl.
  - exact Hne.
  - inversion Ha as [|? ? Hart Harts]; subst.
    destruct (Py.startswith term art) eqn:Es.
    + destruct (rest_after_prefix term art Hart Hr Es) as [H1 H2].
      apply IH; assumption.
    + apply IH; assumption.
Qed.

Lemma lookup_definition_effects (ext : external_lookup) (term : string) (e : effect) :
  In e (fst (lookup_definition ext term)) ->
  e = Print (LogLookingUp (Py.strip term)) \/ e = Lookup (Py.strip term).
Proof.
  unfold lookup_definition. destruct (Py.strip term =? ""); simpl; intuition.
Qed.

Lemma prefixed_definition_term_nonempty (ext : external_lookup) (ps : list string) (t : string) :
  Forall ends_in_space ps -> Py.rstrip t = t ->
  match prefixed_definition ext ps t with
  | Some r => ~ In (Speak MsgWhatDefine) (fst r)
  | None => True
  end.
Proof.
  intros Hps Ht. induction Hps as [|p ps Hp Hps IH]; simpl; [exact I|].
  destruct (Py.startswith t p) eqn:Es; [|exact IH].
  destruct (rest_after_prefix t p Hp Ht Es) as [Hne Hr].
  destruct (StrFacts.strip_keeps_end _ Hne Hr) as [Hsne Hsr].
  pose proof (strip_articles_nonempty _ Hsne Hsr) as Hterm.
  apply String.eqb_neq in Hterm. rewrite Hterm.
  destruct (lookup_definition ext _) as [eff defn] eqn:El. simpl.
  intros [Hc|Hin]; [discriminate|].
  apply in_app_or in Hin as [Hin|Hin].
  - pose proof (lookup_definition_effects ext
      (strip_articles (Py.strip (Py.drop (String.length p) t))) (Speak MsgWhatDefine))
      as Hl.
    rewrite El in Hl. destruct (Hl Hin); discriminate.
  - destruct defn as [d|]; [destruct (truthy (Some d))|]; simpl in Hin;
      destruct Hin as [Hin|[]]; discriminate.
Qed.

Lemma definition_rules_term_nonempty (ext : external_lookup) (t : string) :
  Py.rstrip t = t -> ~ In (Speak MsgWhatDefine) (fst (definition_rules ext t)).
Proof.
  intro Ht. unfold definition_rules.
  assert (Hps : Forall ends_in_space def_prefixes).
  { repeat constructor;
      [exists "define" | exists "definition of" | exists "what is"
      | exists "what's" | exists "tell me about"]; reflexivity. }
  pose proof (prefixed_definition_term_nonempty ext def_prefixes t Hps Ht) as Hpd.
  destruct (prefixed_definition ext def_prefixes t) as [r|]; [exact Hpd|].
  destruct (List.length (Py.split t) <=? 3)%nat; [|simpl; intuition discriminate].
  destruct (lookup_definition ext t) as [eff defn] eqn:El.
  pose proof (lookup_definition_effects ext t (Speak MsgWhatDefine)) as Hl.
  rewrite El in Hl. simpl in Hl.
  destruct defn as [d|]; [destruct (truthy (Some d))|]; simpl; intro Hin;
    apply in_app_or in Hin as [Hin|[Hin|[]]]; try discriminate;
    destruct (Hl Hin); discriminate.
Qed.

(** C10: [handle_user_command] never reaches the "What would you like me to
    define?" branch: the text is stripped, every definition prefix ends in
    a space, so the term left after removing the prefix and the articles
    is never empty. *)
Theorem prefixed_definition_term_never_empty {N : Type} `{NumSem N}
  (ext : external_lookup) (command_text : string) :
  ~ In (Speak MsgWhatDefine) (fst (handle_user_command ext command_text)).
Proof.
  pose proof (definition_rules_term_nonempty ext (Py.lower (Py.strip command_text))
                (StrFacts.rstrip_command_text command_text)) as Hd.
  unfold handle_user_command.
  destruct (command_text =? ""); [simpl; intuition discriminate|].
  destruct (existsb _ exit_words); [simpl; intuition discriminate|].
  destruct (_ || _); [simpl; intuition discriminate|].
  destruct (_ || _); [simpl; intuition discriminate|].
  destruct (_ || _); [|exact Hd].
  destruct (evaluate _ _); [simpl; intuition discriminate| |];
    simpl; intros [Hc|Hin]; [discriminate|exact (Hd Hin)|discriminate|exact (Hd Hin)].
Qed.

(* ================================================================== *)
(** * Further properties of the code *)

(** ** Characters and strings *)

Lemma all_chars_app (p : ascii -> bool) (a b : string) :
  Py.all_chars p (a ++ b) = Py.all_chars p a && Py.all_chars p b.
Proof. induction a as [|c r IH]; simpl; [reflexivity|]. rewrite IH, andb_assoc. reflexivity. Qed.






(** ** The tokenizer on integer literals *)
























(** ** [safe_eval] on integer literals (lines 97-135) *)















Lemma prefix_single_cons (a c : ascii) (y z : string) :
  String.prefix (String a "") (String c y) = String.prefix (String a "") (String c z).
Proof. simpl. destruct (ascii_dec a c); destruct y, z; reflexivity. Qed.

Lemma remove_commas_no_comma (s : string) : Py.contains "," (Py.replace s "," "") = false.
Proof.
  unfold Py.replace. induction s as [|c r IH]; [reflexivity|].
  cbn [Py.replace_from]. destruct (String.prefix "," (String c r)) eqn:Ep.
  - exact IH.
  - cbn [Py.contains]. rewrite IH, orb_false_r.
    rewrite (prefix_single_cons _ _ _ r). exact Ep.
Qed.

(** X8: [safe_eval] ignores commas (thousands separators) wherever they
    are: removing them first does not change the outcome. *)
Theorem safe_eval_ignores_commas {N : Type} `{NumSem N} (s : string) :
  safe_eval (Py.replace s "," "") = safe_eval s.
Proof.
  unfold safe_eval at 1.
  rewrite (StrFacts.replace_absent _ _ _ (remove_commas_no_comma s)). reflexivity.
Qed.

(** ** The command handler (lines 211-307) *)

Definition lookup_effect (e : effect) : Prop :=
  exists t, (e = Print (LogLookingUp t) \/ e = Lookup t) /\ t <> "" /\ Py.strip t = t.

Definition definition_effect (e : effect) : Prop :=
  (exists m, e = Speak m /\ definition_message m = true) \/ lookup_effect e.

Lemma lookup_definition_lookup_effect (ext : external_lookup) (term : string) (e : effect) :
  In e (fst (lookup_definition ext term)) -> lookup_effect e.
Proof.
  unfold lookup_definition, lookup_effect.
  destruct (Py.strip term =? "") eqn:E; simpl; [contradiction|].
  apply String.eqb_neq in E.
  intros [<-|[<-|[]]]; exists (Py.strip term);
    (split; [auto|split; [exact E|apply StrFacts.strip_strip]]).
Qed.

Lemma prefixed_definition_shape (ext : external_lookup) (ps : list string) (t : string) :
  match prefixed_definition ext ps t with
  | Some r => snd r = None /\ (exists m, In (Speak m) (fst r)) /\
              (forall e, In e (fst r) -> definition_effect e)
  | None => True
  end.
Proof.
  induction ps as [|p ps IH]; simpl; [exact I|].
  destruct (Py.startswith t p); [|exact IH].
  match goal with |- context [if ?c =? "" then _ else _] => destruct (c =? "") end.
  - simpl. split; [reflexivity|]. split; [eexists; left; reflexivity|].
    intros e [<-|[]]. left. eexists; split; reflexivity.
  - match goal with |- context [lookup_definition ext ?term] =>
      pose proof (lookup_definition_lookup_effect ext term) as Hl;
      destruct (lookup_definition ext term) as [eff defn] end.
    simpl in Hl |- *. split; [reflexivity|]. split; [eexists; left; reflexivity|].
    intros e [<-|Hin]; [left; eexists; split; reflexivity|].
    apply in_app_or in Hin as [Hin|[<-|[]]]; [right; exact (Hl e Hin)|].
    left. destruct defn as [d|]; [destruct (truthy (Some d))|];
      eexists; split; reflexivity.
Qed.

Lemma definition_rules_shape (ext : external_lookup) (t : string) :
  snd (definition_rules ext t) = None /\
  (exists m, In (Speak m) (fst (definition_rules ext t))) /\
  (forall e, In e (fst (definition_rules ext t)) -> definition_effect e).
Proof.
  unfold definition_rules. pose proof (prefixed_definition_shape ext def_prefixes t) as Hp.
  destruct (prefixed_definition ext def_prefixes t) as [r|]; [exact Hp|].
  destruct (List.length (Py.split t) <=? 3)%nat.
  - pose proof (lookup_definition_lookup_effect ext t) as Hl.
    destruct (lookup_definition ext t) as [eff defn]. simpl in Hl.
    assert (Hgen : forall m, definition_message m = true ->
      snd ((eff ++ [Speak m])%list, @None string) = None /\
      (exists m', In (Speak m') (fst ((eff ++ [Speak m])%list, @None string))) /\
      (forall e, In e (fst ((eff ++ [Speak m])%list, @None string)) -> definition_effect e)).
    { intros m Hm. simpl. split; [reflexivity|]. split.
      - exists m. apply in_or_app. right. left. reflexivity.
      - intros e Hin. apply in_app_or in Hin as [Hin|[<-|[]]];
          [right; exact (Hl e Hin)|left; exists m; split; [reflexivity|exact Hm]]. }
    destruct defn as [d|]; [destruct (truthy (Some d))|]; apply Hgen; reflexivity.
  - simpl. split; [reflexivity|]. split; [eexists; left; reflexivity|].
    intros e [<-|[]]. left. eexists; split; reflexivity.
Qed.

(** X9: the handler returns "exit" exactly when the command is non-empty
    and its stripped, lowercased text contains one of the exit words as a
    substring (so "maybe" counts, through "bye"), before any other rule;
    it then only says goodbye.  Every other command returns [None]. *)
Theorem handle_user_command_exit {N : Type} `{NumSem N} (ext : external_lookup)
  (command_text : string) (t := Py.lower (Py.strip command_text)) :
  snd (handle_user_command ext command_text) =
    (if negb (command_text =? "") && existsb (fun w => Py.contains w t) exit_words
     then Some "exit" else None) /\
  (negb (command_text =? "") && existsb (fun w => Py.contains w t) exit_words = true ->
   fst (handle_user_command ext command_text) = [Speak MsgGoodbye]).
Proof.
  destruct (definition_rules_shape ext t) as [Hsnd _].
  unfold handle_user_command. fold t.
  destruct (command_text =? ""); [split; [reflexivity|discriminate]|].
  cbn [negb andb].
  destruct (existsb (fun w => Py.contains w t) exit_words); [split; reflexivity|].
  split; [|discriminate].
  destruct (_ || _); [reflexivity|]. destruct (_ || _); [reflexivity|].
  destruct (_ || _); [|exact Hsnd].
  destruct (evaluate _ _); [reflexivity|exact Hsnd|exact Hsnd].
Qed.

(** X10: the only URLs the handler opens are YouTube's and Google's, each
    only when the text contains "open youtube" (resp. "open google") or is
    exactly "youtube" (resp. "google"). *)
Theorem handle_user_command_opens_only_sites {N : Type} `{NumSem N}
  (ext : external_lookup) (command_text url : string)
  (t := Py.lower (Py.strip command_text))
  (Hopen : In (OpenUrl url) (fst (handle_user_command ext command_text))) :
  (url = "https://www.youtube.com" /\ (Py.contains "open youtube" t || (t =? "youtube")) = true) \/
  (url = "https://www.google.com" /\ (Py.contains "open google" t || (t =? "google")) = true).
Proof.
  destruct (definition_rules_shape ext t) as [_ [_ Hd]].
  assert (Hno : ~ In (OpenUrl url) (fst (definition_rules ext t))).
  { intro Hin. destruct (Hd _ Hin) as [[m [E _]]|[t' [[E|E] _]]]; discriminate. }
  revert Hopen. unfold handle_user_command. fold t.
  destruct (command_text =? ""); [simpl; intuition discriminate|].
  destruct (existsb _ exit_words); [simpl; intuition discriminate|].
  destruct (Py.contains "open youtube" t || (t =? "youtube")) eqn:Ey.
  { simpl. intros [E|[E|[]]]; [discriminate|]. injection E as <-. left. split; reflexivity. }
  destruct (Py.contains "open google" t || (t =? "google")) eqn:Eg.
  { simpl. intros [E|[E|[]]]; [discriminate|]. injection E as <-. right. split; reflexivity. }
  destruct (is_probably_arithmetic t || existsb (Py.startswith t) arith_starts); [|intro Hin; exfalso; exact (Hno Hin)].
  destruct (evaluate _ _); simpl; intros [E|Hin]; try discriminate; [contradiction|exfalso; exact (Hno Hin) ..].
Qed.

Lemma handle_user_command_opens_only_sites_witness :
  let t := Py.lower (Py.strip "please open YouTube") in
  In (OpenUrl "https://www.youtube.com")
     (fst (handle_user_command (N := unit) no_lookup "please open YouTube")) /\
  (("https://www.youtube.com" = "https://www.youtube.com" /\
    (Py.contains "open youtube" t || (t =? "youtube")) = true) \/
   ("https://www.youtube.com" = "https://www.google.com" /\
    (Py.contains "open google" t || (t =? "google")) = true)).
Proof.
  intro t.
  assert (Hin : In (OpenUrl "https://www.youtube.com")
                   (fst (handle_user_command (N := unit) no_lookup "please open YouTube")))
    by (vm_compute; auto).
  exact (conj Hin (handle_user_command_opens_only_sites (N := unit) no_lookup
                     "please open YouTube" "https://www.youtube.com" Hin)).
Defined.

(** X11: the external definition sources are only ever queried with a
    non-empty term that has no leading or trailing whitespace. *)
Theorem handle_user_command_lookup_terms {N : Type} `{NumSem N}
  (ext : external_lookup) (command_text term : string)
  (Hlook : In (Lookup term) (fst (handle_user_command ext command_text))) :
  term <> "" /\ Py.strip term = term.
Proof.
  set (t := Py.lower (Py.strip command_text)) in *.
  destruct (definition_rules_shape ext t) as [_ [_ Hd]].
  assert (Hdef : In (Lookup term) (fst (definition_rules ext t)) ->
                 term <> "" /\ Py.strip term = term).
  { intro Hin. destruct (Hd _ Hin) as [[m [E _]]|[t' [[E|E] [H1 H2]]]];
      try discriminate. injection E as ->. split; assumption. }
  revert Hlook. unfold handle_user_command. fold t.
  destruct (command_text =? ""); [simpl; intuition discriminate|].
  destruct (existsb _ exit_words); [simpl; intuition discriminate|].
  destruct (_ || _); [simpl; intuition discriminate|].
  destruct (_ || _); [simpl; intuition discriminate|].
  destruct (_ || _); [|exact Hdef].
  destruct (evaluate _ _); simpl; intros [E|Hin]; try discriminate;
    try contradiction; exact (Hdef Hin).
Qed.

Lemma handle_user_command_lookup_terms_witness :
  In (Lookup "recursion") (fst (handle_user_command (N := unit) no_lookup "  Define   recursion ")) /\
  ("recursion" <> "" /\ Py.strip "recursion" = "recursion").
Proof.
  assert (Hin : In (Lookup "recursion")
                   (fst (handle_user_command (N := unit) no_lookup "  Define   recursion ")))
    by (vm_compute; auto 6).
  exact (conj Hin (handle_user_command_lookup_terms (N := unit) no_lookup _ _ Hin)).
Defined.

(** X12: every command, the empty one included, gets at least one spoken
    reply. *)
Theorem handle_user_command_always_speaks {N : Type} `{NumSem N}
  (ext : external_lookup) (command_text : string) :
  exists m, In (Speak m) (fst (handle_user_command ext command_text)).
Proof.
  set (t := Py.lower (Py.strip command_text)).
  destruct (definition_rules_shape ext t) as [_ [[m Hm] _]].
  unfold handle_user_command. fold t.
  destruct (command_text =? ""); [eexists; left; reflexivity|].
  destruct (existsb _ exit_words); [eexists; left; reflexivity|].
  destruct (_ || _); [eexists; left; reflexivity|].
  destruct (_ || _); [eexists; left; reflexivity|].
  destruct (_ || _); [|exists m; exact Hm].
  destruct (evaluate _ _); [eexists; left; reflexivity| |];
    exists m; right; exact Hm.
Qed.

(** X13: when the handler announces an arithmetic result, that is all it
    does: no lookup, no other message, no URL, and it returns [None]. *)
Theorem handle_user_command_result_alone {N : Type} `{NumSem N}
  (ext : external_lookup) (command_text pretty : string)
  (Hres : In (Speak (MsgResult pretty)) (fst (handle_user_command ext command_text))) :
  handle_user_command ext command_text = ([Speak (MsgResult pretty)], None).
Proof.
  set (t := Py.lower (Py.strip command_text)) in *.
  destruct (definition_rules_shape ext t) as [_ [_ Hd]].
  assert (Hno : ~ In (Speak (MsgResult pretty)) (fst (definition_rules ext t))).
  { intro Hin. destruct (Hd _ Hin) as [[m [E Hm]]|[t' [[E|E] _]]]; try discriminate.
    injection E as <-. discriminate. }
  revert Hres. unfold handle_user_command. fold t.
  destruct (command_text =? ""); [simpl; intuition discriminate|].
  destruct (existsb _ exit_words); [simpl; intuition discriminate|].
  destruct (_ || _); [simpl; intuition discriminate|].
  destruct (_ || _); [simpl; intuition discriminate|].
  destruct (is_probably_arithmetic t || existsb (Py.startswith t) arith_starts); [|intro Hin; exfalso; exact (Hno Hin)].
  destruct (evaluate _ _); simpl.
  - intros [E|[]]. injection E as ->. reflexivity.
  - intros [E|Hin]; [discriminate|exfalso; exact (Hno Hin)].
  - intros [E|Hin]; [discriminate|exfalso; exact (Hno Hin)].
Qed.

Lemma handle_user_command_result_alone_witness :
  In (Speak (MsgResult "161")) (fst (handle_user_command (N := unit) no_lookup "compute 23 times 7")) /\
  handle_user_command (N := unit) no_lookup "compute 23 times 7" = ([Speak (MsgResult "161")], None).
Proof.
  assert (Hin : In (Speak (MsgResult "161"))
                   (fst (handle_user_command (N := unit) no_lookup "compute 23 times 7")))
    by (vm_compute; auto).
  exact (conj Hin (handle_user_command_result_alone (N := unit) no_lookup _ _ Hin)).
Defined.

(** ** Symbolic expressions through the normaliser and the handler *)

Lemma contains_all_chars (p : ascii -> bool) (k t : string) :
  Py.contains k t = true -> Py.all_chars p t = true -> Py.all_chars p k = true.
Proof.
  induction t as [|c r IH]; intros Hc Ht.
  - destruct k; [reflexivity|discriminate].
  - cbn [Py.contains] in Hc. destruct (String.prefix k (String c r)) eqn:Ep.
    + apply StrFacts.prefix_app in Ep. rewrite Ep, all_chars_app in Ht.
      apply andb_true_iff in Ht as [Hk _]. exact Hk.
    + simpl in Ht. apply andb_true_iff in Ht as [_ Hr]. exact (IH Hc Hr).
Qed.

Lemma absent_by_chars (p : ascii -> bool) (k t : string) :
  Py.all_chars p k = false -> Py.all_chars p t = true -> Py.contains k t = false.
Proof.
  intros Hk Ht. destruct (Py.contains k t) eqn:Hc; [|reflexivity].
  rewrite (contains_all_chars p k t Hc Ht) in Hk. discriminate.
Qed.




(** A text made of whitelisted characters contains none of the spoken
    operator phrases, so the normaliser only strips it. *)
Lemma normalize_allowed (s : string) :
  Py.all_chars allowed_char s = true -> normalize s = Py.strip s.
Proof.
  intro Hs. unfold normalize. rewrite replace_all_absent; [apply StrFacts.strip_pad|].
  assert (Hp : Py.all_chars allowed_char (" " ++ s ++ " ") = true).
  { rewrite !all_chars_app, Hs. reflexivity. }
  apply forallb_forall. intros [k v] Hin. cbn [fst].
  apply negb_true_iff, (absent_by_chars allowed_char); [|exact Hp].
  simpl in Hin. repeat destruct Hin as [Hin|Hin]; try contradiction;
    injection Hin as <- <-; reflexivity.
Qed.

(** X14: an expression already written with symbols (digits, operators,
    parentheses, dot, space) passes the spoken-operator normaliser
    unchanged, up to the surrounding whitespace. *)
Theorem normalize_symbolic_expression (s : string)
  (Hs : Py.all_chars allowed_char s = true) :
  normalize s = Py.strip s.
Proof. exact (normalize_allowed s Hs). Qed.

Lemma normalize_symbolic_expression_witness :
  Py.all_chars allowed_char " (2+3) * 4 % 5 " = true /\
  normalize " (2+3) * 4 % 5 " = "(2+3) * 4 % 5".
Proof.
  split; [reflexivity|].
  exact (normalize_symbolic_expression " (2+3) * 4 % 5 " eq_refl).
Defined.








(** ** The main loop (lines 312-352) *)

Lemma handle_user_command_exit_words {N : Type} `{NumSem N} (ext : external_lookup)
  (command_text : string) :
  command_text <> "" ->
  existsb (fun w => Py.contains w (Py.lower (Py.strip command_text))) exit_words = true ->
  handle_user_command ext command_text = ([Speak MsgGoodbye], Some "exit").
Proof.
  intros Hne Hex. unfold handle_user_command. apply String.eqb_neq in Hne.
  rewrite Hne, Hex. reflexivity.
Qed.

(** X16: from the top of the loop, utterances without the wake word are
    never dispatched: each non-empty one only prints the wake-word note,
    silent listens are skipped, and the loop stays at the top. *)
Theorem run_ignores_without_wake_word {N : Type} `{NumSem N} (ext : external_lookup)
  (inputs : list (option string))
  (Hno : forallb lacks_wake_word inputs = true) :
  run ext Idle inputs =
    (repeat (Print LogNoWakeWord)
            (List.length (filter (fun h => negb (heard_nothing h)) inputs)),
     Listening Idle).
Proof.
  induction inputs as [|h rest IH]; [reflexivity|].
  simpl in Hno. apply andb_true_iff in Hno as [Hh Hrest].
  destruct h as [s|]; cbn [run filter heard_nothing negb]; [|exact (IH Hrest)].
  destruct (s =? "") eqn:Es; cbn [negb]; [exact (IH Hrest)|].
  simpl in Hh. apply negb_true_iff in Hh. rewrite Hh, (IH Hrest). reflexivity.
Qed.

Lemma run_ignores_without_wake_word_witness :
  forallb lacks_wake_word [Some "hello there"; None; Some ""; Some "stop"] = true /\
  run (N := unit) no_lookup Idle [Some "hello there"; None; Some ""; Some "stop"] =
    ([Print LogNoWakeWord; Print LogNoWakeWord], Listening Idle).
Proof.
  split; [reflexivity|].
  exact (run_ignores_without_wake_word (N := unit) no_lookup
           [Some "hello there"; None; Some ""; Some "stop"] eq_refl).
Defined.

(** X17: a wake-word utterance whose command contains an exit word ends
    the session at once: the goodbye is the only effect and the remaining
    utterances are never listened to. *)
Theorem run_exit_ends_session {N : Type} `{NumSem N} (ext : external_lookup)
  (spoken : string) (rest : list (option string))
  (after := Py.strip (after_first WAKE_WORD spoken))
  (Hspoken : spoken <> "")
  (Hwake : Py.contains WAKE_WORD spoken = true)
  (Hafter : after <> "")
  (Hexit : existsb (fun w => Py.contains w (Py.lower (Py.strip after))) exit_words = true) :
  run ext Idle (Some spoken :: rest) = ([Speak MsgGoodbye], Exited).
Proof.
  cbn [run]. apply String.eqb_neq in Hspoken. rewrite Hspoken, Hwake. fold after.
  pose proof (handle_user_command_exit_words ext after Hafter Hexit) as Eh.
  apply String.eqb_neq in Hafter. rewrite Hafter, Eh. reflexivity.
Qed.

Lemma run_exit_ends_session_witness :
  run (N := unit) no_lookup Idle [Some "assistant please stop"; Some "assistant open google"] =
    ([Speak MsgGoodbye], Exited).
Proof.
  apply (run_exit_ends_session (N := unit) no_lookup "assistant please stop");
    [discriminate | reflexivity | discriminate | reflexivity].
Defined.

(** X18: after the wake word alone, the first utterance heard within the
    [MAX_RETRIES] follow-up listens is handled as a command without the
    wake word, each silent listen before it is answered with the
    re-prompt, and then the loop is back at the top (or has exited). *)
Theorem run_followup_dispatched {N : Type} `{NumSem N} (ext : external_lookup)
  (spoken follow : string) (silent rest : list (option string))
  (Hspoken : spoken <> "")
  (Hwake : Py.contains WAKE_WORD spoken = true)
  (Hafter : Py.strip (after_first WAKE_WORD spoken) = "")
  (Hsilent : forallb heard_nothing silent = true)
  (Hlen : (List.length silent < MAX_RETRIES)%nat)
  (Hfollow : follow <> "") :
  run ext Idle (Some spoken :: silent ++ Some follow :: rest) =
  let pre := Speak MsgYes :: repeat (Speak MsgSayAgain) (List.length silent) in
  let (eff, result) := handle_user_command ext follow in
  if is_exit result then ((pre ++ eff)%list, Exited)
  else prepend (pre ++ eff) (run ext Idle rest).
Proof.
  cbn [run]. apply String.eqb_neq in Hspoken. rewrite Hspoken, Hwake, Hafter.
  cbn [String.eqb]. apply String.eqb_neq in Hfollow.
  assert (Hf : forall k, run ext (AwaitingFollowup (S k)) (Some follow :: rest) =
    let (eff, result) := handle_user_command ext follow in
    if is_exit result then (eff, Exited) else prepend eff (run ext Idle rest)).
  { intro k. cbn [run]. rewrite Hfollow. reflexivity. }
  destruct silent as [|h [|h2 s]]; [| |simpl in Hlen; unfold MAX_RETRIES in Hlen; lia].
  - cbn [List.app List.length repeat]. unfold MAX_RETRIES, followup_state. rewrite Hf.
    destruct (handle_user_command ext follow) as [eff result].
    destruct (is_exit result); reflexivity.
  - simpl in Hsilent. rewrite andb_true_r in Hsilent.
    assert (Hh : run ext (AwaitingFollowup 2) (h :: Some follow :: rest) =
                 prepend [Speak MsgSayAgain] (run ext (AwaitingFollowup 1) (Some follow :: rest))).
    { destruct h as [x|]; simpl in Hsilent; [apply String.eqb_eq in Hsilent; subst x|];
        reflexivity. }
    cbn [List.app List.length repeat]. unfold MAX_RETRIES, followup_state.
    rewrite Hh, Hf. unfold prepend.
    destruct (handle_user_command ext follow) as [eff result].
    destruct (is_exit result); simpl; [reflexivity|].
    reflexivity.
Qed.

Lemma run_followup_dispatched_witness :
  run (N := unit) no_lookup Idle ([Some "assistant"] ++ [None] ++ [Some "youtube"; Some "hi"]) =
    ([Speak MsgYes; Speak MsgSayAgain; Speak MsgOpeningYouTube;
      OpenUrl "https://www.youtube.com"; Print LogNoWakeWord], Listening Idle).
Proof.
  exact (run_followup_dispatched (N := unit) no_lookup "assistant" "youtube" [None] [Some "hi"]
           ltac:(discriminate) eq_refl eq_refl eq_refl ltac:(unfold MAX_RETRIES; simpl; lia)
           ltac:(discriminate)).
Defined.

(** ** [speak] *)

Definition word (w : string) : bool :=
  negb (w =? "") && Py.all_chars (fun c => negb (Py.is_space c)) w.

Lemma split_acc_app (w cur rest : string) :
  Py.all_chars (fun c => negb (Py.is_space c)) w = true ->
  Py.split_acc cur (w ++ rest) = Py.split_acc (cur ++ w) rest.
Proof.
  revert cur. induction w as [|c w' IH]; intros cur H.
  - rewrite StrFacts.app_empty_r. reflexivity.
  - simpl in H. apply andb_true_iff in H as [H1 H2]. apply negb_true_iff in H1.
    cbn [String.append Py.split_acc]. rewrite H1, (IH _ H2), str_app_assoc. reflexivity.
Qed.

Lemma split_acc_words (s cur : string) :
  Py.all_chars (fun c => negb (Py.is_space c)) cur = true ->
  forallb word (Py.split_acc cur s) = true.
Proof.
  revert cur. induction s as [|c r IH]; intros cur Hc; cbn [Py.split_acc].
  - destruct cur; [reflexivity|]. simpl forallb. unfold word.
    rewrite Hc. reflexivity.
  - destruct (Py.is_space c) eqn:Ec.
    + destruct cur as [|d cur']; [exact (IH "" eq_refl)|].
      simpl forallb. rewrite (IH "" eq_refl). unfold word. rewrite Hc. reflexivity.
    + apply IH. rewrite all_chars_app, Hc. simpl. rewrite Ec. reflexivity.
Qed.

Lemma split_join (ws : list string) :
  forallb word ws = true -> Py.split (join " " ws) = ws.
Proof.
  unfold Py.split. induction ws as [|w ws IH]; intro H; [reflexivity|].
  simpl in H. apply andb_true_iff in H as [Hw Hws]. unfold word in Hw.
  apply andb_true_iff in Hw as [Hne Hw]. apply negb_true_iff, String.eqb_neq in Hne.
  destruct ws as [|w' ws'].
  - cbn [join]. rewrite <- (StrFacts.app_empty_r w) at 1. rewrite (split_acc_app w "" "" Hw).
    destruct w; [contradiction|reflexivity].
  - cbn [join]. rewrite (split_acc_app w "" _ Hw). cbn [String.append Py.split_acc].
    destruct w as [|c w0]; [contradiction|]. cbn [Py.is_space nat_of_ascii].
    change (Py.is_space " ") with true. cbn iota.
    f_equal. exact (IH Hws).
Qed.

(** X19: [speak] only normalises whitespace: the text it prints and says
    has exactly the words of the given text, and normalising it again
    changes nothing. *)
Theorem speak_text_words (text : string) :
  Py.split (speak_text text) = Py.split text /\
  speak_text (speak_text text) = speak_text text.
Proof.
  assert (E : Py.split (speak_text text) = Py.split text).
  { unfold speak_text. apply split_join, split_acc_words. reflexivity. }
  split; [exact E|]. unfold speak_text at 1. rewrite E. reflexivity.
Qed.

(** ** Definition prefixes and the arithmetic rule *)

(** The definition prefixes other than "what is ", which is also an
    arithmetic trigger. *)
Definition definition_heads : list string := ["define"; "definition of"; "what's"; "tell me about"].

Lemma replace_keeps_head (pre k v Y : string) :
  In pre definition_heads -> In (k, v) replacements ->
  Py.replace (" " ++ pre ++ Y) k v = (" " ++ pre ++ Py.replace Y k v)%string.
Proof.
  intros Hp Hk. simpl in Hp, Hk.
  repeat destruct Hp as [Hp|Hp]; try contradiction; subst pre;
    repeat destruct Hk as [Hk|Hk]; try contradiction; injection Hk as <- <-;
    reflexivity.
Qed.

Lemma replace_all_keeps_head (pre Y : string) (table : list (string * string)) :
  In pre definition_heads -> incl table replacements ->
  replace_all table (" " ++ pre ++ Y) = (" " ++ pre ++ replace_all table Y)%string.
Proof.
  unfold replace_all. intros Hp. revert Y.
  induction table as [|[k v] t IH]; intros Y Hincl; [reflexivity|]. cbn [fold_left fst snd].
  rewrite (replace_keeps_head pre k v Y Hp (Hincl _ (or_introl eq_refl))).
  apply IH. intros x Hx. apply Hincl. right. exact Hx.
Qed.

Lemma strip_trigger_none (trigs : list string) (s : string) :
  existsb (Py.startswith s) trigs = false -> strip_trigger trigs s = s.
Proof.
  induction trigs as [|tr ts IH]; simpl; [reflexivity|].
  intro H. apply orb_false_iff in H as [H1 H2]. rewrite H1. exact (IH H2).
Qed.

Lemma rstrip_head (c : ascii) (x : string) :
  Py.is_space c = false -> exists x', Py.rstrip (String c x) = String c x'.
Proof.
  intro Hc. rewrite StrFacts.rstrip_cons. destruct (Py.rstrip x) as [|d r].
  - rewrite Hc. exists "". reflexivity.
  - exists (String d r). reflexivity.
Qed.

(** The normalised form of a text starting with a definition prefix still
    starts with the prefix's first letter, which the gate refuses. *)
Lemma definition_head_disallowed {N : Type} `{NumSem N} (pre r : string) :
  In pre definition_heads ->
  evaluate safe_eval (normalize (strip_trigger strip_triggers (pre ++ " " ++ r)))
  = DisallowedCharacter.
Proof.
  intro Hp.
  assert (Ht : strip_trigger strip_triggers (pre ++ " " ++ r) = (pre ++ " " ++ r)%string).
  { apply strip_trigger_none. simpl in Hp.
    repeat destruct Hp as [Hp|Hp]; try contradiction; subst pre; reflexivity. }
  rewrite Ht. unfold normalize.
  replace (" " ++ (pre ++ " " ++ r) ++ " ")%string with (" " ++ pre ++ (" " ++ r ++ " "))%string
    by (cbn [String.append]; rewrite !str_app_assoc; reflexivity).
  rewrite (replace_all_keeps_head pre _ replacements Hp (incl_refl _)).
  assert (Hc : exists c x, (pre ++ replace_all replacements (" " ++ r ++ " "))%string = String c x
                 /\ Py.is_space c = false /\ allowed_char c = false).
  { simpl in Hp. repeat destruct Hp as [Hp|Hp]; try contradiction; subst pre;
      (eexists; eexists; split; [reflexivity|split; reflexivity]). }
  destruct Hc as [c [x [Ex [Hs Ha]]]]. rewrite Ex. unfold evaluate, Py.strip.
  change (Py.lstrip (" " ++ String c x)) with (Py.lstrip (String c x)).
  cbn [Py.lstrip]. rewrite Hs.
  destruct (rstrip_head c x Hs) as [x' Ex']. rewrite Ex'.
  cbn [Py.all_chars]. rewrite Ha. reflexivity.
Qed.

(** X20: a command whose text starts with "define ", "definition of ",
    "what's " or "tell me about " is never answered with a computed
    result, even when the rest is arithmetic ("define 2 plus 2"): the
    arithmetic rule may fire, but the normalised text keeps the prefix and
    fails the character whitelist. *)
Theorem handle_definition_prefix_never_evaluates {N : Type} `{NumSem N}
  (ext : external_lookup) (command_text pre pretty : string)
  (t := Py.lower (Py.strip command_text))
  (Hpre : In pre definition_heads)
  (Hstart : Py.startswith t (pre ++ " ") = true) :
  ~ In (Speak (MsgResult pretty)) (fst (handle_user_command ext command_text)).
Proof.
  destruct (definition_rules_shape ext t) as [_ [_ Hd]].
  assert (Hno : ~ In (Speak (MsgResult pretty)) (fst (definition_rules ext t))).
  { intro Hin. destruct (Hd _ Hin) as [[m [E Hm]]|[t' [[E|E] _]]]; try discriminate.
    injection E as <-. discriminate. }
  pose proof (StrFacts.prefix_app _ _ Hstart) as Et.
  rewrite str_app_assoc in Et.
  unfold handle_user_command. fold t.
  destruct (command_text =? ""); [simpl; intuition discriminate|].
  destruct (existsb _ exit_words); [simpl; intuition discriminate|].
  destruct (Py.contains "open youtube" t || (t =? "youtube")); [simpl; intuition discriminate|].
  destruct (Py.contains "open google" t || (t =? "google")); [simpl; intuition discriminate|].
  destruct (is_probably_arithmetic t || existsb (Py.startswith t) arith_starts); [|exact Hno].
  rewrite Et, (definition_head_disallowed pre _ Hpre), <- Et.
  simpl. intros [E|Hin]; [discriminate|exact (Hno Hin)].
Qed.

Lemma handle_definition_prefix_never_evaluates_witness :
  In "define" definition_heads /\
  Py.startswith (Py.lower (Py.strip "Define 2 plus 2")) ("define" ++ " ") = true /\
  ~ In (Speak (MsgResult "4")) (fst (handle_user_command (N := unit) no_lookup "Define 2 plus 2")).
Proof.
  split; [left; reflexivity|]. split; [reflexivity|].
  exact (handle_definition_prefix_never_evaluates (N := unit) no_lookup "Define 2 plus 2"
           "define" "4" (or_introl eq_refl) eq_refl).
Defined.
